(** * Model editor view state and telemetry start-up of vscode-codeql

    A shallow embedding of

    - [src/view/model-editor/ModelEditor.tsx]: the React state of the model
      editor, its [message] listener and the [onChange] / [onSave...]
      callbacks;
    - [src/telemetry.ts]: the global [telemetryListener] and
      [initializeTelemetry].

    React state variables become the fields of a record, a [setX(updater)]
    call becomes a function on that record, [vscode.postMessage] and
    [console.error] become lists of emitted values, and a JavaScript [throw]
    becomes the left injection of a sum. *)

From Stdlib Require Import Ascii String.
From stdpp Require Import gmap strings list fin_maps.

Module ModelEditor.

(** ** JavaScript helpers *)

(** [{ ...a, ...b }]: the properties of [b] override those of [a]. *)
Definition object_spread {V} (a b : gmap string V) : gmap string V := b ∪ a.

Definition LF : ascii := "010"%char.
Definition CR : ascii := "013"%char.

(** The alternation [\n|\r] of the regular expression. *)
Definition is_newline (c : ascii) : bool := (Ascii.eqb c LF || Ascii.eqb c CR)%bool.

(** [s.replace(/\n|\r/g, "")]. *)
Fixpoint strip_newlines (s : string) : string :=
  match s with
  | EmptyString => EmptyString
  | String c s' =>
      if is_newline c
      then strip_newlines s'
      else String c (strip_newlines s')
  end.

Section Editor.

(** The declarations below live in modules that the editor imports
    ([model-editor/modeled-method], [model-editor/external-api-usage],
    [model-editor/shared/view-state], [model-editor/shared/in-progress-methods]);
    the editor reads only [type] of a modeled method and [signature] of a
    usage, and calls only [setPackageMethods] of the in-progress methods. *)
Context {ModeledMethod : Type} (type : ModeledMethod → string).
Context {ExternalApiUsage : Type} (signature : ExternalApiUsage → string).
Context {ModelEditorViewState : Type}.
Context {InProgressMethods : Type}
        (setPackageMethods :
           InProgressMethods → string → gset string → InProgressMethods).

(** ** The component state: one field per [useState] *)

Record State := mkState {
  viewState : option ModelEditorViewState;
  externalApiUsages : list ExternalApiUsage;
  modifiedSignatures : gset string;
  inProgressMethods : InProgressMethods;
  hideModeledApis : bool;
  modeledMethods : gmap string ModeledMethod;
}.

Definition setViewState (v : option ModelEditorViewState) (st : State) : State :=
  mkState v (externalApiUsages st) (modifiedSignatures st)
          (inProgressMethods st) (hideModeledApis st) (modeledMethods st).

Definition setExternalApiUsages (u : list ExternalApiUsage) (st : State) : State :=
  mkState (viewState st) u (modifiedSignatures st)
          (inProgressMethods st) (hideModeledApis st) (modeledMethods st).

Definition setModifiedSignatures (f : gset string → gset string) (st : State) : State :=
  mkState (viewState st) (externalApiUsages st) (f (modifiedSignatures st))
          (inProgressMethods st) (hideModeledApis st) (modeledMethods st).

Definition setInProgressMethods (f : InProgressMethods → InProgressMethods)
    (st : State) : State :=
  mkState (viewState st) (externalApiUsages st) (modifiedSignatures st)
          (f (inProgressMethods st)) (hideModeledApis st) (modeledMethods st).

Definition setHideModeledApis (f : bool → bool) (st : State) : State :=
  mkState (viewState st) (externalApiUsages st) (modifiedSignatures st)
          (inProgressMethods st) (f (hideModeledApis st)) (modeledMethods st).

Definition setModeledMethods
    (f : gmap string ModeledMethod → gmap string ModeledMethod) (st : State) : State :=
  mkState (viewState st) (externalApiUsages st) (modifiedSignatures st)
          (inProgressMethods st) (hideModeledApis st) (f (modeledMethods st)).

(** The state after the first render: the props seed four of the fields,
    [modifiedSignatures] starts as [new Set()]. *)
Definition initial_state (initialViewState : option ModelEditorViewState)
    (initialExternalApiUsages : list ExternalApiUsage)
    (initialModeledMethods : gmap string ModeledMethod)
    (initialHideModeledApis : bool) (noInProgress : InProgressMethods) : State :=
  mkState initialViewState initialExternalApiUsages ∅ noInProgress
          initialHideModeledApis initialModeledMethods.

(** ** Messages *)

(** The kinds of [ToModelEditorMessage] that the listener's [switch] names. *)
Inductive ToModelEditorMessage :=
  | SetModelEditorViewStateMessage (viewState : ModelEditorViewState)
  | SetExternalApiUsagesMessage (externalApiUsages : list ExternalApiUsage)
  | LoadModeledMethodsMessage (modeledMethods : gmap string ModeledMethod)
  | AddModeledMethodsMessage (modeledMethods : gmap string ModeledMethod)
  | SetInProgressMethodsMessage (packageName : string) (inProgressMethods : list string).

Definition known_kinds : list string :=
  [ "setModelEditorViewState"; "setExternalApiUsages"; "loadModeledMethods";
    "addModeledMethods"; "setInProgressMethods" ].

Definition is_known_kind (t : string) : bool := bool_decide (t ∈ known_kinds).

(** A value of [evt.data] on which [msg.t] can be read: it is either a value
    of the union or a value whose [t] is none of the [case] labels. *)
Inductive MessageData :=
  | Typed (msg : ToModelEditorMessage)
  | Untyped (t : string) (Ht : is_known_kind t = false).

Definition msg_t (data : MessageData) : string :=
  match data with
  | Typed (SetModelEditorViewStateMessage _) => "setModelEditorViewState"
  | Typed (SetExternalApiUsagesMessage _) => "setExternalApiUsages"
  | Typed (LoadModeledMethodsMessage _) => "loadModeledMethods"
  | Typed (AddModeledMethodsMessage _) => "addModeledMethods"
  | Typed (SetInProgressMethodsMessage _ _) => "setInProgressMethods"
  | Untyped t _ => t
  end.

Record MessageEvent := mkEvent { origin : string; data : MessageData }.

(** What the view posts to the extension host ([vscode.postMessage]). *)
Inductive FromModelEditorMessage :=
  | HideModeledApisMessage (hideModeledApis : bool)
  | RefreshExternalApiUsagesMessage
  | SaveModeledMethodsMessage (externalApiUsages : list ExternalApiUsage)
                              (modeledMethods : gmap string ModeledMethod).

(** What the listener can throw: the failure of [assertNever], and the
    TypeError of reading a property of [null] or [undefined]. *)
Inductive Error :=
  | ExhaustivityCheckingError (t : string)
  | TypeError.

(** Modelled from the spec: [assertNever] of [common/helpers-pure], the
    explicit unreachable-case failure of the dispatcher; its TypeScript
    result type [never] leaves it no normal return. *)
Definition assertNever {A} (value : MessageData) : Error + A :=
  inl (ExhaustivityCheckingError (msg_t value)).

(** ** The listener *)

(** The bodies of the five [case]s of [switch (msg.t)]. *)
Definition switch_case (msg : ToModelEditorMessage) (st : State) : State :=
  match msg with
  | SetModelEditorViewStateMessage v => setViewState (Some v) st
  | SetExternalApiUsagesMessage u => setExternalApiUsages u st
  | LoadModeledMethodsMessage m =>
      setModeledMethods (λ oldModeledMethods, object_spread m oldModeledMethods) st
  | AddModeledMethodsMessage m =>
      setModifiedSignatures
        (λ oldModifiedSignatures, oldModifiedSignatures ∪ dom m)
        (setModeledMethods
           (λ oldModeledMethods,
              object_spread m
                (filter (λ entry, type entry.2 ≠ "none") oldModeledMethods))
           st)
  | SetInProgressMethodsMessage packageName methods =>
      setInProgressMethods
        (λ oldInProgressMethods,
           setPackageMethods oldInProgressMethods packageName (list_to_set methods))
        st
  end.

(** [switch (msg.t) { case ...: ...; default: assertNever(msg); }] *)
Definition dispatch (data : MessageData) (st : State) : Error + State :=
  match data with
  | Typed msg => inr (switch_case msg st)
  | Untyped _ _ => assertNever data
  end.

(** The [message] listener: the new state with the lines written to
    [console.error], or the error thrown. *)
Definition listener (window_origin : string) (evt : MessageEvent) (st : State)
    : Error + (State * list string) :=
  if String.eqb (origin evt) window_origin then
    match dispatch (data evt) st with
    | inl e => inl e
    | inr st' => inr (st', [])
    end
  else
    let origin := strip_newlines (origin evt) in
    inr (st, [("Invalid event origin " +:+ origin)%string]).





(** ** The callbacks handed to the method list *)

Definition onChange (modelName : string) (method : ExternalApiUsage)
    (model : ModeledMethod) (st : State) : State :=
  setModifiedSignatures
    (λ oldModifiedSignatures, oldModifiedSignatures ∪ {[ signature method ]})
    (setModeledMethods
       (λ oldModeledMethods, <[ signature method := model ]> oldModeledMethods)
       st).

Definition onRefreshClick (st : State) : State * list FromModelEditorMessage :=
  (st, [RefreshExternalApiUsagesMessage]).

Definition onSaveAllClick (st : State) : State * list FromModelEditorMessage :=
  (setModifiedSignatures (λ _, ∅) st,
   [SaveModeledMethodsMessage (externalApiUsages st) (modeledMethods st)]).

(** The arguments shadow the state variables of the same names. *)
Definition onSaveModelClick (externalApiUsages : list ExternalApiUsage)
    (modeledMethods : gmap string ModeledMethod) (st : State)
    : State * list FromModelEditorMessage :=
  (setModifiedSignatures
     (λ oldModifiedSignatures,
        foldl (λ newModifiedSignatures externalApiUsage,
                 newModifiedSignatures ∖ {[ signature externalApiUsage ]})
              oldModifiedSignatures externalApiUsages)
     st,
   [SaveModeledMethodsMessage externalApiUsages modeledMethods]).

Definition onHideModeledApis (st : State) : State :=
  setHideModeledApis negb st.

(** ** The data-model invariant (3) of the specification *)

Definition modified_in_domain (st : State) : Prop :=
  modifiedSignatures st ⊆ dom (modeledMethods st).

End Editor.

End ModelEditor.

Module Telemetry.

(** [const key = "REPLACE-APP-INSIGHTS-KEY"], replaced at build time. *)
Definition key : string := "REPLACE-APP-INSIGHTS-KEY".

Section Process.

(** vscode's [ExtensionContext] is held by reference and the reporter comes
    from [vscode-extension-telemetry]; neither is inspected here. *)
Context {ExtensionContext : Type} {TelemetryReporter : Type}.

(** The two properties of [Extension<any>] that are read. *)
Record Extension := mkExtension {
  extension_id : string;
  packageJSON_version : string;
}.

(** The private fields of [class TelemetryListener]. *)
Record TelemetryListener := mkTelemetryListener {
  listener_id : string;
  listener_version : string;
  listener_key : string;
  listener_ctx : ExtensionContext;
  reporter : option TelemetryReporter;
}.

(** [new TelemetryListener(id, version, key, ctx)]: [reporter] is left
    undefined by the constructor. *)
Definition new_TelemetryListener (id version key : string) (ctx : ExtensionContext)
    : TelemetryListener :=
  mkTelemetryListener id version key ctx None.

(** The mutable state that [initializeTelemetry] touches: the module-level
    [telemetryListener], every [ctx.subscriptions.push] in order, and the
    listeners whose [initialize()] was started without being awaited. *)
Record Globals := mkGlobals {
  telemetryListener : option TelemetryListener;
  subscriptions : list (ExtensionContext * TelemetryListener);
  initialize_started : list TelemetryListener;
}.

Inductive JsError :=
  | Error (message : string).

(** [initializeTelemetry(extension, ctx)]; a [throw] in the [async] body,
    that is a rejected promise, is the left injection. *)
Definition initializeTelemetry (extension : Extension) (ctx : ExtensionContext)
    (g : Globals) : (JsError + unit) * Globals :=
  match telemetryListener g with
  | Some _ => (inl (Error "Telemetry is already initialized"), g)
  | None =>
      let l := new_TelemetryListener (extension_id extension)
                 (packageJSON_version extension) key ctx in
      (inr tt,
       mkGlobals (Some l) (subscriptions g ++ [(ctx, l)])
                 (initialize_started g ++ [l]))
  end.

End Process.

End Telemetry.

(** ** Small concrete instances, used to run the definitions *)

Module Sample.

(** A modeled method reduced to its [type] and one further field. *)
Definition Method : Type := string * string.
Definition method_type (m : Method) : string := m.1.

(** A usage reduced to its signature. *)
Definition usage_signature (u : string) : string := u.

(** In-progress methods as a map from package name to signatures. *)
Definition set_package (p : gmap string (gset string)) (packageName : string)
    (methods : gset string) : gmap string (gset string) :=
  <[ packageName := methods ]> p.

Definition state (modified : gset string) (methods : gmap string Method)
    : @ModelEditor.State Method string unit (gmap string (gset string)) :=
  ModelEditor.mkState None [] modified ∅ false methods.

(** One usage edited by the user to a sink, one left unmodeled. *)
Definition edited : @ModelEditor.State Method string unit (gmap string (gset string)) :=
  state {[ "A#f()" ]}
        (<[ "A#f()" := ("sink", "user") ]> (<[ "A#g()" := ("none", "") ]> ∅)).

(** A generated batch that targets both usages. *)
Definition generated : gmap string Method :=
  <[ "A#f()" := ("source", "generated") ]>
    (<[ "A#g()" := ("summary", "generated") ]> ∅).

(** A usage that the user set back to "none": modified, and in the map. *)
Definition reset_to_none : @ModelEditor.State Method string unit (gmap string (gset string)) :=
  state {[ "A#g()" ]} (<[ "A#g()" := ("none", "") ]> ∅).

(** A generated batch for another usage. *)
Definition generated_other : gmap string Method :=
  <[ "A#f()" := ("source", "generated") ]> ∅.

Definition extension : Telemetry.Extension :=
  Telemetry.mkExtension "GitHub.vscode-codeql" "1.8.0".

Definition fresh_process : @Telemetry.Globals unit unit :=
  Telemetry.mkGlobals None [] [].

End Sample.

(** ** The remaining callbacks and the conditional parts of the render *)

Module ModelEditorView.

Import ModelEditor.

(** [enum Mode] of [model-editor/shared/mode]; the editor names both
    members. *)
Inductive Mode := Application | Framework.

Section View.

Context {ModeledMethod : Type} {ExternalApiUsage : Type}.
Context {ModelEditorViewState : Type} (mode : ModelEditorViewState → Mode).
Context {InProgressMethods : Type}.

Local Abbreviation State :=
  (@State ModeledMethod ExternalApiUsage ModelEditorViewState InProgressMethods).

(** The kinds of message that the callbacks below post. *)
Inductive PostedMessage :=
  | GenerateExternalApiMessage
  | ModelDependencyMessage
  | GenerateExternalApiFromLlmMessage (packageName : string)
      (externalApiUsages : list ExternalApiUsage)
      (modeledMethods : gmap string ModeledMethod)
  | StopGeneratingExternalApiFromLlmMessage (packageName : string)
  | OpenDatabaseMessage
  | OpenExtensionPackMessage
  | SwitchModeMessage (mode : Mode).

Definition onGenerateFromSourceClick (st : State) : State * list PostedMessage :=
  (st, [GenerateExternalApiMessage]).

Definition onModelDependencyClick (st : State) : State * list PostedMessage :=
  (st, [ModelDependencyMessage]).

Definition onGenerateFromLlmClick (packageName : string)
    (externalApiUsages : list ExternalApiUsage)
    (modeledMethods : gmap string ModeledMethod) (st : State)
    : State * list PostedMessage :=
  (st, [GenerateExternalApiFromLlmMessage packageName externalApiUsages modeledMethods]).

Definition onStopGenerateFromLlmClick (packageName : string) (st : State)
    : State * list PostedMessage :=
  (st, [StopGeneratingExternalApiFromLlmMessage packageName]).

Definition onOpenDatabaseClick (st : State) : State * list PostedMessage :=
  (st, [OpenDatabaseMessage]).

Definition onOpenExtensionPackClick (st : State) : State * list PostedMessage :=
  (st, [OpenExtensionPackMessage]).

(** [viewState?.mode === Mode.Framework ? Mode.Application : Mode.Framework] *)
Definition onSwitchModeClick (st : State) : State * list PostedMessage :=
  let newMode :=
    match mode <$> viewState st with
    | Some Framework => Application
    | _ => Framework
    end in
  (st, [SwitchModeMessage newMode]).

(** The effect on [hideModeledApis]: it posts the current value after the
    first render and after every render that changed it. *)
Definition hideModeledApis_effect (st : State)
    : list (@FromModelEditorMessage ModeledMethod ExternalApiUsage) :=
  [HideModeledApisMessage (hideModeledApis st)].

(** What the render decides by a condition: the loading placeholder, or the
    editor with the "Save all" button's [disabled], the "Hide modeled APIs"
    checkbox's [checked], the label of the switch-mode link and whether the
    "Generate" button is there. *)
Inductive Rendered :=
  | LoadingContainer
  | ModelEditorContainer (saveAllDisabled : bool) (hideModeledApisChecked : bool)
      (switchModeLabel : string) (generateShown : bool).

Definition render (st : State) : Rendered :=
  match viewState st with
  | None => LoadingContainer
  | Some v =>
      if bool_decide (length (externalApiUsages st) = 0) then LoadingContainer
      else
        ModelEditorContainer
          (bool_decide (size (modifiedSignatures st) = 0))
          (hideModeledApis st)
          (match mode v with
           | Framework => "Model as application"
           | Application => "Model as dependency"
           end)
          (match mode v with Framework => true | Application => false end)
  end.

End View.

End ModelEditorView.

(** ** The telemetry listener: its processor, its reporter and its events *)

Module TelemetryListenerMethods.

Import Telemetry.

Definition tagsToRemove : list string :=
  [ "ai.application.ver"; "ai.device.id"; "ai.cloud.roleInstance";
    "ai.cloud.role"; "ai.device.id"; "ai.device.osArchitecture";
    "ai.device.osPlatform"; "ai.device.osVersion"; "ai.internal.sdkVersion";
    "ai.session.id" ].

Definition baseDataPropertiesToRemove : list string :=
  [ "common.os"; "common.platformversion"; "common.remotename";
    "common.uikind"; "common.vscodesessionid" ].

(** [keys.forEach((k) => delete o[k])] *)
Definition delete_each {V} (keys : list string) (o : gmap string V) : gmap string V :=
  foldl (λ o k, delete k o) o keys.

Section Processor.

(** The values of tags and properties are not looked at. *)
Context {V : Type}.

(** The part of an Application Insights envelope that the processor
    reaches: [envelope.tags] and [envelope.data?.baseData?.properties]. *)
Record BaseData := mkBaseData { properties : option (gmap string V) }.
Record Data := mkData { baseData : option BaseData }.
Record Envelope := mkEnvelope { tags : gmap string V; data : option Data }.

(** [(envelope.data as any)?.baseData?.properties] *)
Definition baseDataProperties (envelope : Envelope) : option (gmap string V) :=
  match data envelope with
  | Some d => match baseData d with
              | Some b => properties b
              | None => None
              end
  | None => None
  end.

(** The envelope after the deletions, which are done in place. *)
Definition scrub (envelope : Envelope) : Envelope :=
  mkEnvelope
    (delete_each tagsToRemove (tags envelope))
    (match data envelope with
     | Some (mkData (Some (mkBaseData (Some baseDataProperties)))) =>
         Some (mkData (Some (mkBaseData
           (Some (delete_each baseDataPropertiesToRemove baseDataProperties)))))
     | d => d
     end).

(** The function given to [client.addTelemetryProcessor]: its result, the
    envelope as it leaves it, and the envelopes it wrote to the log (each
    one after [Telemetry: ] and as [JSON.stringify] prints it). *)
Definition telemetryProcessor (LOG_TELEMETRY : bool) (envelope : Envelope)
    : bool * Envelope * list Envelope :=
  let envelope := scrub envelope in
  (true, envelope, if LOG_TELEMETRY then [envelope] else []).

End Processor.

(** [enum CommandCompletion], by its string values. *)
Inductive CommandCompletion := Success | Failed | Cancelled.

Definition CommandCompletion_value (c : CommandCompletion) : string :=
  match c with
  | Success => "Success"
  | Failed => "Failed"
  | Cancelled => "Cancelled"
  end.

(** What [sendCommandUsage] asks of its [error]: whether it is an instance
    of [UserCancellationException]. *)
Inductive ErrorClass := UserCancellationException | OtherError.

(** [b.toString()] *)
Definition bool_toString (b : bool) : string := if b then "true" else "false".

Section Listener.

Context {ExtensionContext : Type}.
(** [executionTime] is a JavaScript number that is handed on untouched. *)
Context {number : Type}.

(** A [TelemetryReporter] as the listener makes it: the four constructor
    arguments, and the rank of the object among the reporters created. *)
Record Reporter := mkReporter {
  extensionId : string;
  extensionVersion : string;
  reporter_key : string;
  firstParty : bool;
  serial : nat;
}.

Record TelemetryEvent := mkTelemetryEvent {
  eventName : string;
  event_properties : gmap string string;
  measurements : gmap string number;
}.

(** Calls on objects that the listener does not own. *)
Inductive Effect :=
  | PushDisposable (r : Reporter)
  | AddTelemetryProcessor (r : Reporter)
  | DisposeReporter (r : Reporter)
  | SuperDispose
  | SendTelemetryEvent (r : Reporter) (e : TelemetryEvent).

(** What the methods read and do not write. [showBinaryChoiceWithUrlDialog n]
    is the user's answer to the dialog shown after [n] earlier ones,
    [None] for a dialog closed without an answer; [appInsightsClient] tells
    whether a reporter has a client to take the processor. *)
Record Inputs := mkInputs {
  GLOBAL_ENABLE_TELEMETRY : bool;
  CANARY_FEATURES : bool;
  isIntegrationTestMode : bool;
  isCanary : bool;
  appInsightsClient : bool;
  showBinaryChoiceWithUrlDialog : nat → option bool;
}.

(** What the methods read and write: the listener with its [reporter],
    [ctx.globalState], the setting [ENABLE_TELEMETRY] (a cell: [updateValue]
    stores what [getValue] returns), the number of dialogs shown and of
    reporters created, and the calls made so far. An [async] method is run
    from start to end, each [await] being a plain sequencing. *)
Record World := mkWorld {
  this : @TelemetryListener ExtensionContext Reporter;
  globalState : gmap string bool;
  ENABLE_TELEMETRY : bool;
  dialogs : nat;
  created : nat;
  trace : list Effect;
}.

Definition set_reporter (r : option Reporter) (w : World) : World :=
  mkWorld
    (mkTelemetryListener (listener_id (this w)) (listener_version (this w))
       (listener_key (this w)) (listener_ctx (this w)) r)
    (globalState w) (ENABLE_TELEMETRY w) (dialogs w) (created w) (trace w).

Definition call (effects : list Effect) (w : World) : World :=
  mkWorld (this w) (globalState w) (ENABLE_TELEMETRY w) (dialogs w) (created w)
          (trace w ++ effects).

(** [ENABLE_TELEMETRY.updateValue(value, ConfigurationTarget.Global)] *)
Definition ENABLE_TELEMETRY_updateValue (value : bool) (w : World) : World :=
  mkWorld (this w) (globalState w) value (dialogs w) (created w) (trace w).

Definition wasTelemetryRequested (w : World) : bool :=
  match globalState w !! "telemetry-request-viewed" with
  | Some b => b
  | None => false
  end.

Definition setTelemetryRequested (newValue : bool) (w : World) : World :=
  mkWorld (this w) (<[ "telemetry-request-viewed" := newValue ]> (globalState w))
          (ENABLE_TELEMETRY w) (dialogs w) (created w) (trace w).

Definition disposeReporter (w : World) : World :=
  match reporter (this w) with
  | Some r => set_reporter None (call [DisposeReporter r] w)
  | None => w
  end.

Definition createReporter (i : Inputs) (w : World) : World :=
  let r := mkReporter (listener_id (this w)) (listener_version (this w))
             (listener_key (this w)) true (created w) in
  let w := mkWorld (this w) (globalState w) (ENABLE_TELEMETRY w) (dialogs w)
             (S (created w)) (trace w) in
  let w := call [PushDisposable r] (set_reporter (Some r) w) in
  if appInsightsClient i then call [AddTelemetryProcessor r] w else w.

Definition requestTelemetryPermission (i : Inputs) (w : World) : World :=
  if negb (wasTelemetryRequested w) then
    let '(result, w) :=
      if (GLOBAL_ENABLE_TELEMETRY i && negb (isIntegrationTestMode i))%bool then
        (showBinaryChoiceWithUrlDialog i (dialogs w),
         mkWorld (this w) (globalState w) (ENABLE_TELEMETRY w) (S (dialogs w))
                 (created w) (trace w))
      else (None, w) in
    match result with
    | Some result => ENABLE_TELEMETRY_updateValue result (setTelemetryRequested true w)
    | None => w
    end
  else w.

Definition initialize (i : Inputs) (w : World) : World :=
  let w := requestTelemetryPermission i w in
  let w := disposeReporter w in
  if ENABLE_TELEMETRY w then createReporter i w else w.

(** [e] is [e.affectsConfiguration]. *)
Definition handleDidChangeConfiguration (i : Inputs) (e : string → bool)
    (w : World) : World :=
  let w :=
    if (e "codeQL.telemetry.enableTelemetry" || e "telemetry.enableTelemetry")%bool
    then initialize i w else w in
  if (e "codeQL.canary" && CANARY_FEATURES i && negb (ENABLE_TELEMETRY w))%bool
  then requestTelemetryPermission i (setTelemetryRequested false w)
  else w.

Definition dispose (w : World) : World :=
  call (SuperDispose ::
        match reporter (this w) with
        | Some r => [DisposeReporter r]
        | None => []
        end) w.

Definition sendCommandUsage (i : Inputs) (name : string) (executionTime : number)
    (error : option ErrorClass) (w : World) : World :=
  match reporter (this w) with
  | None => w
  | Some r =>
      let status :=
        match error with
        | None => Success
        | Some UserCancellationException => Cancelled
        | Some OtherError => Failed
        end in
      call [SendTelemetryEvent r
              (mkTelemetryEvent "command-usage"
                 (<[ "name" := name ]>
                    (<[ "status" := CommandCompletion_value status ]>
                       (<[ "isCanary" := bool_toString (isCanary i) ]> ∅)))
                 (<[ "executionTime" := executionTime ]> ∅))] w
  end.

Definition sendUIInteraction (i : Inputs) (name : string) (w : World) : World :=
  match reporter (this w) with
  | None => w
  | Some r =>
      call [SendTelemetryEvent r
              (mkTelemetryEvent "ui-interaction"
                 (<[ "name" := name ]>
                    (<[ "isCanary" := bool_toString (isCanary i) ]> ∅))
                 ∅)] w
  end.

(** [errorType] is one of the strings of [ErrorType]. *)
Definition sendError (errorType : string) (stack : option string)
    (extraProperties : option (gmap string string)) (w : World) : World :=
  match reporter (this w) with
  | None => w
  | Some r =>
      let properties :=
        ModelEditor.object_spread (<[ "type" := errorType ]> ∅)
                                  (default ∅ extraProperties) in
      let properties :=
        match stack with
        | Some stack =>
            if bool_decide (stack ≠ "") then <[ "stack" := stack ]> properties
            else properties
        | None => properties
        end in
      call [SendTelemetryEvent r (mkTelemetryEvent "error" properties ∅)] w
  end.

End Listener.

End TelemetryListenerMethods.

(** ** Further concrete instances *)

Module Scenario.

Import ModelEditorView TelemetryListenerMethods.

(** An editor that is displayed: the view state is reduced to its mode. *)
Definition displayed
    : @ModelEditor.State Sample.Method string Mode (gmap string (gset string)) :=
  ModelEditor.mkState (Some Framework) ["A#f()"; "A#g()"] {[ "A#f()" ]} ∅ false
    (<[ "A#f()" := ("sink", "user") ]> ∅).

Definition mode_of (v : Mode) : Mode := v.

(** An envelope with one tag and one property of the lists, and one of each
    that is on neither list. *)
Definition envelope : @Envelope string :=
  mkEnvelope
    (<[ "ai.session.id" := "4f2a" ]> (<[ "ai.user.id" := "u17" ]> ∅))
    (Some (mkData (Some (mkBaseData
       (Some (<[ "common.os" := "linux" ]> (<[ "name" := "runQuery" ]> ∅))))))).

(** A listener as [initializeTelemetry] makes it, in a world where nothing
    has happened yet and telemetry is off. *)
Definition idle : @World unit nat :=
  mkWorld (Telemetry.new_TelemetryListener "GitHub.vscode-codeql" "1.8.0"
             Telemetry.key tt)
          ∅ false 0 0 [].

(** The same world once the user was asked and telemetry is on. *)
Definition enabled : @World unit nat :=
  mkWorld (Telemetry.new_TelemetryListener "GitHub.vscode-codeql" "1.8.0"
             Telemetry.key tt)
          (<[ "telemetry-request-viewed" := true ]> ∅) true 1 0 [].

(** A user who allows telemetry each time the dialog comes up. *)
Definition user_agrees : Inputs :=
  mkInputs true true false false true (λ _, Some true).

(** A user who refuses it each time. *)
Definition user_declines : Inputs :=
  mkInputs true true false false true (λ _, Some false).

(** The first reporter that the listener creates, and the world in which
    the listener has it. *)
Definition reporter0 : Reporter :=
  mkReporter "GitHub.vscode-codeql" "1.8.0" Telemetry.key true 0.

Definition reporting : @World unit nat := initialize user_agrees enabled.

(** A change of [codeQL.canary] and of nothing else. *)
Definition canary_changed (section : string) : bool :=
  String.eqb section "codeQL.canary".

End Scenario.

(** * Properties of the model editor *)

Import ModelEditor.

Section EditorSpec.

Context {ModeledMethod : Type} (type : ModeledMethod → string).
Context {ExternalApiUsage : Type} (signature : ExternalApiUsage → string).
Context {ModelEditorViewState : Type}.
Context {InProgressMethods : Type}
        (setPackageMethods :
           InProgressMethods → string → gset string → InProgressMethods).

Local Abbreviation State :=
  (@State ModeledMethod ExternalApiUsage ModelEditorViewState InProgressMethods).

Implicit Types (st : State) (batch old : gmap string ModeledMethod) (s : string).

(** The merged map of the [addModeledMethods] case, key by key. *)
Lemma lookup_merge_generated batch old s :
  object_spread batch (filter (λ entry, type entry.2 ≠ "none") old) !! s =
  match old !! s with
  | Some mm => if decide (type mm ≠ "none") then Some mm else batch !! s
  | None => batch !! s
  end.
Proof.
  unfold object_spread. rewrite lookup_union, map_lookup_filter.
  destruct (old !! s) as [mm|] eqn:Hold; simpl.
  - case_guard; simpl; by destruct (batch !! s).
  - by destruct (batch !! s).
Qed.

Lemma modeledMethods_add batch st :
  modeledMethods (switch_case type setPackageMethods (AddModeledMethodsMessage batch) st) =
  object_spread batch (filter (λ entry, type entry.2 ≠ "none") (modeledMethods st)).
Proof. reflexivity. Qed.

Lemma modifiedSignatures_add batch st :
  modifiedSignatures (switch_case type setPackageMethods (AddModeledMethodsMessage batch) st) =
  modifiedSignatures st ∪ dom batch.
Proof. reflexivity. Qed.

Lemma foldl_delete_signatures (usages : list ExternalApiUsage) (X : gset string) :
  foldl (λ acc u, acc ∖ {[ signature u ]}) X usages =
  X ∖ list_to_set (signature <$> usages).
Proof.
  revert X. induction usages as [|u usages IH]; intros X; simpl.
  - set_solver.
  - rewrite IH. set_solver.
Qed.

(** C1. Merging a generated batch changes the entry of a signature only if
    that entry was absent or of type "none"; an entry of any other type is
    kept as it was, whatever the batch holds for its signature, and an absent
    or "none" entry takes the batch's model when the batch has one. *)
Theorem C1_add_replaces_only_none_or_absent st batch s :
  let st' := switch_case type setPackageMethods (AddModeledMethodsMessage batch) st in
  (∀ mm, modeledMethods st !! s = Some mm → type mm ≠ "none" →
         modeledMethods st' !! s = Some mm)
  ∧ (modeledMethods st' !! s ≠ modeledMethods st !! s →
       modeledMethods st !! s = None
       ∨ ∃ mm, modeledMethods st !! s = Some mm ∧ type mm = "none")
  ∧ (modeledMethods st !! s = None
       ∨ (∃ mm, modeledMethods st !! s = Some mm ∧ type mm = "none") →
     ∀ g, batch !! s = Some g → modeledMethods st' !! s = Some g).
Proof.
  intros st'. subst st'. rewrite modeledMethods_add, lookup_merge_generated.
  destruct (modeledMethods st !! s) as [mm|] eqn:Hold.
  - destruct (decide (type mm ≠ "none")) as [Hty|Hty].
    + split; [by intros ? [= <-] _|]. split; [done|].
      intros [?|(mm' & [= <-] & ?)]; done.
    + apply dec_stable in Hty. split; [by intros ? [= <-] ?|].
      split; [intros _; right; eauto|]. by intros _ g ->.
  - split; [done|]. split; [by left|]. by intros _ g ->.
Qed.

(** C3. A non-"none" entry whose signature is not a key of the incoming
    batch is present and unchanged in the merged map. *)
Theorem C3_add_keeps_models_outside_batch st batch s mm :
  s ∉ dom batch →
  modeledMethods st !! s = Some mm →
  type mm ≠ "none" →
  modeledMethods (switch_case type setPackageMethods (AddModeledMethodsMessage batch) st) !! s = Some mm.
Proof.
  intros _ Hold Hty.
  rewrite modeledMethods_add, lookup_merge_generated, Hold.
  by rewrite decide_True.
Qed.

(** C5. After a generated batch is applied, every key of the batch is in
    ModifiedSignatures, and a signature that is not a key of the batch is
    modified afterwards exactly when it was modified before. *)
Theorem C5_add_marks_exactly_batch_keys st batch :
  let st' := switch_case type setPackageMethods (AddModeledMethodsMessage batch) st in
  dom batch ⊆ modifiedSignatures st'
  ∧ ∀ s, s ∉ dom batch →
         (s ∈ modifiedSignatures st' ↔ s ∈ modifiedSignatures st).
Proof.
  intros st'. subst st'. rewrite modifiedSignatures_add. set_solver.
Qed.

(** C6. Saving one model removes from ModifiedSignatures exactly the
    signatures of the usages passed in: the new set is the old set minus
    those signatures, and the ModeledMethod map is not touched. *)
Theorem C6_save_model_removes_exactly_given st
    (usages : list ExternalApiUsage) (methods : gmap string ModeledMethod) :
  let S : gset string := list_to_set (signature <$> usages) in
  let st' := (onSaveModelClick signature usages methods st).1 in
  modifiedSignatures st' = modifiedSignatures st ∖ S
  ∧ (∀ s, s ∈ modifiedSignatures st' ↔ s ∈ modifiedSignatures st ∧ s ∉ S)
  ∧ modeledMethods st' = modeledMethods st.
Proof.
  intros S st'. subst S st'. simpl. rewrite foldl_delete_signatures.
  split; [done|]. split; [set_solver|done].
Qed.

(** C7. Loading modeled methods keeps every entry already in the map and
    takes the incoming entry only for an absent signature; loading the same
    methods a second time changes nothing. *)
Theorem C7_load_existing_wins_and_idempotent st (m : gmap string ModeledMethod) :
  let st1 := switch_case type setPackageMethods (LoadModeledMethodsMessage m) st in
  (∀ s mm, modeledMethods st !! s = Some mm → modeledMethods st1 !! s = Some mm)
  ∧ (∀ s, modeledMethods st !! s = None → modeledMethods st1 !! s = m !! s)
  ∧ switch_case type setPackageMethods (LoadModeledMethodsMessage m) st1 = st1.
Proof.
  intros st1. subst st1. simpl. unfold object_spread. split; [|split].
  - intros s mm Hs. by apply lookup_union_Some_l.
  - intros s Hs. by rewrite lookup_union_r.
  - unfold setModeledMethods. simpl. f_equal.
    rewrite <-(assoc_L (∪)). by rewrite (idemp_L (∪) m).
Qed.

(** C2 (as the code has it). "Save all" posts one [saveModeledMethods]
    message carrying the current usages and modeled methods and, in the same
    handler and before any answer can arrive, empties ModifiedSignatures; the
    ModeledMethod map is not touched. *)
Theorem C2_save_all_clears_at_once st :
  let r := onSaveAllClick st in
  modifiedSignatures r.1 = ∅
  ∧ modeledMethods r.1 = modeledMethods st
  ∧ r.2 = [SaveModeledMethodsMessage (externalApiUsages st) (modeledMethods st)].
Proof. done. Qed.


Lemma is_newline_spec (c : ascii) : is_newline c ↔ c = LF ∨ c = CR.
Proof.
  unfold is_newline. rewrite orb_True.
  by destruct (Ascii.eqb_spec c LF), (Ascii.eqb_spec c CR); naive_solver.
Qed.

Lemma strip_newlines_filter (o : string) :
  list_ascii_of_string (strip_newlines o)
  = filter (λ c, ¬ is_newline c) (list_ascii_of_string o).
Proof.
  induction o as [|c o IH]; [done|].
  cbn [strip_newlines list_ascii_of_string].
  destruct (is_newline c) eqn:Hc; cbn [list_ascii_of_string].
  - rewrite filter_cons_False; [exact IH|]. rewrite Hc. intros Hn. by apply Hn.
  - rewrite filter_cons_True; [by rewrite IH|]. rewrite Hc. exact id.
Qed.

(** C9. An event whose origin is not the window's own origin runs no
    handler and leaves the whole state as it was; the listener only writes
    one line to [console.error], built from the origin with every line feed
    and carriage return removed. *)
Theorem C9_foreign_origin_only_logged (window_origin : string)
    (evt : MessageEvent) st :
  origin evt ≠ window_origin →
  ∃ logged,
    listener type setPackageMethods window_origin evt st
    = inr (st, [("Invalid event origin " +:+ logged)%string])
    ∧ list_ascii_of_string logged
      = filter (λ c, ¬ is_newline c) (list_ascii_of_string (origin evt))
    ∧ (LF ∉ list_ascii_of_string logged)
    ∧ (CR ∉ list_ascii_of_string logged).
Proof.
  intros Hne. exists (strip_newlines (origin evt)). unfold listener.
  destruct (String.eqb_spec (origin evt) window_origin) as [|_]; [done|].
  rewrite strip_newlines_filter. split; [done|]. split; [done|].
  split; intros [Hc _]%list_elem_of_filter; apply Hc, is_newline_spec; auto.
Qed.

(** Invariant (3) holds of the state of the first render. *)
Lemma modified_in_domain_initial (v : option ModelEditorViewState)
    (u : list ExternalApiUsage) (m : gmap string ModeledMethod) (h : bool)
    (p : InProgressMethods) :
  modified_in_domain (initial_state v u m h p).
Proof. unfold modified_in_domain. simpl. set_solver. Qed.

(** C8 (as the code has it). ModifiedSignatures ⊆ dom(ModeledMethod) is
    preserved by every message kind but [addModeledMethods], by a user edit
    and by both save operations; [addModeledMethods] preserves it when no
    modified signature outside the incoming batch has an entry of type
    "none". *)
Theorem C8_invariant_preserved st :
  modified_in_domain st →
  (∀ msg, (∀ batch, msg ≠ AddModeledMethodsMessage batch) →
          modified_in_domain (switch_case type setPackageMethods msg st))
  ∧ (∀ batch,
       (∀ s mm, s ∈ modifiedSignatures st → s ∉ dom batch →
                modeledMethods st !! s = Some mm → type mm ≠ "none") →
       modified_in_domain (switch_case type setPackageMethods (AddModeledMethodsMessage batch) st))
  ∧ (∀ modelName method model,
       modified_in_domain (onChange signature modelName method model st))
  ∧ modified_in_domain (onSaveAllClick st).1
  ∧ (∀ usages methods,
       modified_in_domain (onSaveModelClick signature usages methods st).1).
Proof.
  unfold modified_in_domain. intros Hinv. repeat split.
  - intros [v|u|m|m|p l] Hmsg; simpl; try done.
    + unfold object_spread. rewrite dom_union_L. set_solver.
    + by destruct (Hmsg m).
  - intros batch Hbatch s Hs.
    rewrite modifiedSignatures_add in Hs. rewrite modeledMethods_add.
    apply elem_of_dom. rewrite lookup_merge_generated.
    destruct (decide (s ∈ dom batch)) as [Hin|Hout].
    + apply elem_of_dom in Hin. destruct (modeledMethods st !! s) as [mm|]; [|done].
      by case_decide.
    + assert (s ∈ modifiedSignatures st) as Hmod by set_solver.
      pose proof (Hinv s Hmod) as [mm Hmm]%elem_of_dom.
      rewrite Hmm. rewrite decide_True by eauto. done.
  - intros modelName method model. simpl. rewrite dom_insert_L. set_solver.
  - simpl. set_solver.
  - intros usages methods. simpl. rewrite foldl_delete_signatures. set_solver.
Qed.

End EditorSpec.

(** ** The claims on concrete states *)

Lemma C1_witness :
  modeledMethods
    (switch_case Sample.method_type Sample.set_package
       (AddModeledMethodsMessage Sample.generated) Sample.edited) !! "A#f()"
  = Some ("sink", "user").
Proof.
  apply (proj1 (C1_add_replaces_only_none_or_absent Sample.method_type
                  Sample.set_package Sample.edited Sample.generated "A#f()")).
  - reflexivity.
  - discriminate.
Defined.

Lemma C3_witness :
  modeledMethods
    (switch_case Sample.method_type Sample.set_package
       (AddModeledMethodsMessage Sample.generated_other)
       (Sample.state ∅ (<[ "A#h()" := ("neutral", "user") ]> ∅))) !! "A#h()"
  = Some ("neutral", "user").
Proof.
  apply (C3_add_keeps_models_outside_batch Sample.method_type Sample.set_package).
  - unfold Sample.generated_other. rewrite dom_insert_L, dom_empty_L.
    intros [Heq|Hin]%elem_of_union.
    + apply elem_of_singleton in Heq. discriminate.
    + by apply not_elem_of_empty in Hin.
  - reflexivity.
  - discriminate.
Defined.


Lemma C5_witness :
  "A#h()" ∈ modifiedSignatures
    (switch_case Sample.method_type Sample.set_package
       (AddModeledMethodsMessage Sample.generated_other)
       (Sample.state {[ "A#h()" ]} ∅)).
Proof.
  apply (proj2 (C5_add_marks_exactly_batch_keys Sample.method_type
                  Sample.set_package (Sample.state {[ "A#h()" ]} ∅)
                  Sample.generated_other) "A#h()").
  - unfold Sample.generated_other. rewrite dom_insert_L, dom_empty_L.
    intros [Heq|Hin]%elem_of_union.
    + apply elem_of_singleton in Heq. discriminate.
    + by apply not_elem_of_empty in Hin.
  - by apply elem_of_singleton.
Defined.

Lemma C7_witness :
  modeledMethods
    (switch_case Sample.method_type Sample.set_package
       (LoadModeledMethodsMessage Sample.generated) Sample.edited) !! "A#f()"
  = Some ("sink", "user").
Proof.
  apply (proj1 (C7_load_existing_wins_and_idempotent Sample.method_type
                  Sample.set_package Sample.edited Sample.generated)).
  reflexivity.
Defined.

Lemma sample_edited_invariant : modified_in_domain Sample.edited.
Proof.
  unfold modified_in_domain, Sample.edited. simpl. rewrite dom_insert_L.
  apply union_subseteq_l.
Defined.

Lemma C8_witness :
  modified_in_domain
    (switch_case Sample.method_type Sample.set_package
       (AddModeledMethodsMessage Sample.generated) Sample.edited).
Proof.
  apply (proj1 (proj2 (C8_invariant_preserved Sample.method_type Sample.usage_signature
                         Sample.set_package Sample.edited
                         sample_edited_invariant))).
  intros s mm Hs _ Hlookup.
  change (s ∈ ({[ "A#f()" ]} : gset string)) in Hs.
  apply elem_of_singleton in Hs. subst s.
  injection Hlookup as <-. discriminate.
Defined.

Lemma C9_witness :
  ∃ logged,
    listener Sample.method_type Sample.set_package "vscode-webview://editor"
      (mkEvent "https://evil.example" (Typed (LoadModeledMethodsMessage Sample.generated)))
      Sample.edited
    = inr (Sample.edited, [("Invalid event origin " +:+ logged)%string])
    ∧ list_ascii_of_string logged
      = filter (λ c, ¬ is_newline c) (list_ascii_of_string "https://evil.example")
    ∧ (LF ∉ list_ascii_of_string logged)
    ∧ (CR ∉ list_ascii_of_string logged).
Proof.
  apply (C9_foreign_origin_only_logged Sample.method_type Sample.set_package
           "vscode-webview://editor"
           (mkEvent "https://evil.example"
                    (Typed (LoadModeledMethodsMessage Sample.generated)))).
  discriminate.
Defined.

(** A line break inside a foreign origin does not reach the console. *)
Example foreign_origin_sanitized :
  listener Sample.method_type Sample.set_package "vscode-webview://editor"
    (mkEvent (String "a" (String LF (String "b" (String CR EmptyString))))
             (Typed (LoadModeledMethodsMessage Sample.generated)))
    Sample.edited
  = inr (Sample.edited, ["Invalid event origin ab"]).
Proof. reflexivity. Qed.

(** C2 as stated fails: a "save all" on a state with one modified signature
    leaves ModifiedSignatures empty straight away; the handler has posted its
    request and has no outcome of the save to look at, so the set is cleared
    as well when the save then fails. *)
Lemma C2_counterexample :
  modifiedSignatures (onSaveAllClick Sample.edited).1
  ≠ modifiedSignatures Sample.edited.
Proof.
  simpl. intros Heq.
  assert ("A#f()" ∈ (∅ : gset string)) as Hin
    by (rewrite Heq; by apply elem_of_singleton).
  by apply not_elem_of_empty in Hin.
Qed.


(** C8 as stated fails: with a modified signature whose entry is of type
    "none", a generated batch for another signature drops the entry from the
    map and keeps the signature in ModifiedSignatures. *)
Lemma C8_counterexample :
  modified_in_domain Sample.reset_to_none
  ∧ ¬ modified_in_domain
        (switch_case Sample.method_type Sample.set_package
           (AddModeledMethodsMessage Sample.generated_other) Sample.reset_to_none).
Proof.
  split.
  - unfold modified_in_domain, Sample.reset_to_none. simpl.
    rewrite dom_insert_L. apply union_subseteq_l.
  - unfold modified_in_domain. intros Hsub.
    assert ("A#g()" ∈ dom (modeledMethods
              (switch_case Sample.method_type Sample.set_package
                 (AddModeledMethodsMessage Sample.generated_other)
                 Sample.reset_to_none))) as Hin.
    { apply Hsub. simpl. apply elem_of_union_l. by apply elem_of_singleton. }
    apply elem_of_dom in Hin as [mm Hmm]. vm_compute in Hmm. discriminate.
Qed.

(** * Properties of the telemetry start-up *)

Import Telemetry.

Section TelemetrySpec.

Context {ExtensionContext : Type} {TelemetryReporter : Type}.

Local Abbreviation Globals := (@Globals ExtensionContext TelemetryReporter).
Local Abbreviation TelemetryListener :=
  (@TelemetryListener ExtensionContext TelemetryReporter).

(** C10. With the global listener already defined, [initializeTelemetry]
    throws and changes nothing; with it undefined, the call returns
    normally, having built the listener from the extension's id and version,
    installed it as the global, pushed it on the context's subscriptions and
    started its initialization. Hence whatever the first call did, a second
    call throws and leaves the listener of the first in place. *)
Theorem C10_initializeTelemetry_at_most_once (extension : Extension)
    (ctx : ExtensionContext) (g : Globals) :
  (∀ l : TelemetryListener, telemetryListener g = Some l →
     initializeTelemetry extension ctx g = (inl (Error "Telemetry is already initialized"), g))
  ∧ (telemetryListener g = None →
     let l := new_TelemetryListener (extension_id extension)
                (packageJSON_version extension) key ctx in
     initializeTelemetry extension ctx g
     = (inr tt, mkGlobals (Some l) (subscriptions g ++ [(ctx, l)])
                          (initialize_started g ++ [l])))
  ∧ (∀ extension' ctx',
       let g1 := (initializeTelemetry extension ctx g).2 in
       is_Some (telemetryListener g1)
       ∧ initializeTelemetry extension' ctx' g1 = (inl (Error "Telemetry is already initialized"), g1)).
Proof.
  unfold initializeTelemetry. split; [|split].
  - by intros l ->.
  - by intros ->.
  - intros extension' ctx'. by destruct (telemetryListener g) as [l|] eqn:Hg; simpl;
      [rewrite Hg|].
Qed.

End TelemetrySpec.

Lemma C10_witness :
  initializeTelemetry Sample.extension tt Sample.fresh_process
  = (inr tt,
     mkGlobals
       (Some (mkTelemetryListener "GitHub.vscode-codeql" "1.8.0"
                "REPLACE-APP-INSIGHTS-KEY" tt None))
       [(tt, mkTelemetryListener "GitHub.vscode-codeql" "1.8.0"
               "REPLACE-APP-INSIGHTS-KEY" tt None)]
       [mkTelemetryListener "GitHub.vscode-codeql" "1.8.0"
          "REPLACE-APP-INSIGHTS-KEY" tt None]).
Proof.
  apply (proj1 (proj2 (C10_initializeTelemetry_at_most_once Sample.extension tt
                         Sample.fresh_process))).
  reflexivity.
Defined.

(** * Further properties of the model editor *)

Section EditorMore.

Context {ModeledMethod : Type} (type : ModeledMethod → string).
Context {ExternalApiUsage : Type} (signature : ExternalApiUsage → string).
Context {ModelEditorViewState : Type}.
Context {InProgressMethods : Type}
        (setPackageMethods :
           InProgressMethods → string → gset string → InProgressMethods).

Local Abbreviation State :=
  (@State ModeledMethod ExternalApiUsage ModelEditorViewState InProgressMethods).

Implicit Types (st : State) (batch old : gmap string ModeledMethod) (s : string).

(** X1. A user edit followed by a generated batch: the signature is still
    modified; a model of a type other than "none" survives whatever the batch
    holds; a model of type "none" gives way to the batch's entry for the
    signature, and is dropped when the batch has none. *)
Theorem edit_then_generated st (modelName : string) (method : ExternalApiUsage)
    (model : ModeledMethod) batch :
  let st' := switch_case type setPackageMethods (AddModeledMethodsMessage batch)
               (onChange signature modelName method model st) in
  signature method ∈ modifiedSignatures st'
  ∧ (type model ≠ "none" →
     modeledMethods st' !! signature method = Some model)
  ∧ (type model = "none" →
     modeledMethods st' !! signature method = batch !! signature method).
Proof using Type.
  intros st'. subst st'.
  rewrite modifiedSignatures_add, modeledMethods_add, lookup_merge_generated.
  simpl. rewrite lookup_insert_eq. split; [set_solver|]. split; intros Hty.
  - by rewrite decide_True.
  - rewrite decide_False; [done|]. by intros Hne.
Qed.

Lemma merge_generated_twice batch old :
  object_spread batch
    (filter (λ entry, type entry.2 ≠ "none")
       (object_spread batch (filter (λ entry, type entry.2 ≠ "none") old)))
  = object_spread batch (filter (λ entry, type entry.2 ≠ "none") old).
Proof using Type.
  apply map_eq. intros s. rewrite !lookup_merge_generated.
  destruct (old !! s) as [mm|]; [destruct (decide (type mm ≠ "none"))|].
  - by rewrite decide_True.
  - destruct (batch !! s) as [g|]; [by case_decide|done].
  - destruct (batch !! s) as [g|]; [by case_decide|done].
Qed.

(** X2. Applying the same generated batch twice gives the state that
    applying it once gives. *)
Theorem add_idempotent st batch :
  switch_case type setPackageMethods (AddModeledMethodsMessage batch)
    (switch_case type setPackageMethods (AddModeledMethodsMessage batch) st)
  = switch_case type setPackageMethods (AddModeledMethodsMessage batch) st.
Proof using Type.
  destruct st as [v u modified p h old]. simpl.
  unfold setModifiedSignatures, setModeledMethods. simpl. f_equal.
  - set_solver.
  - apply merge_generated_twice.
Qed.

(** X3. After a generated batch the map holds exactly the batch's keys and
    the keys of the old entries of a type other than "none"; an entry of
    type "none" in the result can only be one the batch brought. *)
Theorem add_domain st batch :
  let st' := switch_case type setPackageMethods (AddModeledMethodsMessage batch) st in
  dom (modeledMethods st')
  = dom batch ∪ dom (filter (λ entry, type entry.2 ≠ "none") (modeledMethods st))
  ∧ ∀ s mm, modeledMethods st' !! s = Some mm → type mm = "none" →
            batch !! s = Some mm.
Proof using Type.
  intros st'. subst st'. rewrite modeledMethods_add. split.
  - unfold object_spread. rewrite dom_union_L. set_solver.
  - intros s mm. rewrite lookup_merge_generated.
    destruct (modeledMethods st !! s) as [mm'|]; [|done].
    case_decide; [|done]. by intros [= ->] ?.
Qed.

(** X4. Two loads in a row amount to one load of the second map overridden
    by the first, and no load touches ModifiedSignatures. *)
Theorem load_twice st (m1 m2 : gmap string ModeledMethod) :
  switch_case type setPackageMethods (LoadModeledMethodsMessage m2)
    (switch_case type setPackageMethods (LoadModeledMethodsMessage m1) st)
  = switch_case type setPackageMethods
      (LoadModeledMethodsMessage (object_spread m2 m1)) st
  ∧ modifiedSignatures
      (switch_case type setPackageMethods (LoadModeledMethodsMessage m1) st)
    = modifiedSignatures st.
Proof using Type.
  split; [|done]. simpl. unfold setModeledMethods, object_spread. simpl.
  f_equal. by rewrite (assoc_L (∪)).
Qed.


(** X6. The listener throws exactly on an event of the window's own origin
    whose kind is none of the five. *)
Theorem listener_throws_iff (window_origin : string) (evt : MessageEvent) st :
  (∃ e, listener type setPackageMethods window_origin evt st = inl e)
  ↔ origin evt = window_origin ∧ is_known_kind (msg_t (data evt)) = false.
Proof using Type.
  unfold listener.
  destruct (String.eqb_spec (origin evt) window_origin) as [Heq|Hne].
  - destruct (data evt) as [msg|t Ht]; simpl.
    + split; [by intros [e ?]|]. intros [_ Hk]. by destruct msg.
    + split; [done|]. intros _. eauto.
  - split; [by intros [e ?]|]. by intros [? _].
Qed.

(** X7. Stripping line breaks is idempotent, never lengthens the string, and
    leaves a string as it is exactly when the string has no line feed and no
    carriage return. *)
Theorem strip_newlines_props (o : string) :
  strip_newlines (strip_newlines o) = strip_newlines o
  ∧ String.length (strip_newlines o) ≤ String.length o
  ∧ (strip_newlines o = o
     ↔ (LF ∉ list_ascii_of_string o) ∧ (CR ∉ list_ascii_of_string o)).
Proof using Type.
  split; [|split].
  - induction o as [|c o IH]; [done|]. cbn [strip_newlines].
    destruct (is_newline c) eqn:Hc; [done|].
    cbn [strip_newlines]. by rewrite Hc, IH.
  - induction o as [|c o IH]; [done|]. cbn [strip_newlines].
    destruct (is_newline c); simpl; lia.
  - split.
    + intros Heq. pose proof (strip_newlines_filter o) as Hf. rewrite Heq in Hf.
      split; intros Hin; rewrite Hf in Hin;
        apply list_elem_of_filter in Hin as [Hc _]; apply Hc, is_newline_spec; auto.
    + intros [Hlf Hcr]. induction o as [|c o IH]; [done|].
      cbn [strip_newlines]. cbn [list_ascii_of_string] in Hlf, Hcr.
      apply not_elem_of_cons in Hlf as [Hlf1 Hlf2].
      apply not_elem_of_cons in Hcr as [Hcr1 Hcr2].
      destruct (is_newline c) eqn:Hc.
      * assert (is_newline c) as Hc' by (by rewrite Hc).
        apply is_newline_spec in Hc' as [->| ->]; done.
      * by rewrite IH.
Qed.

(** X8. Saving one list of usages and then another leaves the state that
    saving the two lists at once leaves, in either order; saving an empty
    list changes nothing. *)
Theorem save_model_composes st (usages1 usages2 : list ExternalApiUsage)
    (methods1 methods2 methods : gmap string ModeledMethod) :
  (onSaveModelClick signature usages2 methods2
     (onSaveModelClick signature usages1 methods1 st).1).1
  = (onSaveModelClick signature (usages1 ++ usages2) methods st).1
  ∧ (onSaveModelClick signature (usages1 ++ usages2) methods st).1
    = (onSaveModelClick signature (usages2 ++ usages1) methods st).1
  ∧ (onSaveModelClick signature [] methods st).1 = st.
Proof using Type.
  clear type setPackageMethods.
  destruct st as [v u modified p h old].
  unfold onSaveModelClick, setModifiedSignatures. simpl. split; [|split].
  - by rewrite foldl_app.
  - f_equal. rewrite !foldl_delete_signatures, !fmap_app, !list_to_set_app_L.
    set_solver.
  - done.
Qed.

(** X9. Saving a list of usages whose signatures cover every modified
    signature leaves the state that "Save all" leaves. *)
Theorem save_model_covering_is_save_all st (usages : list ExternalApiUsage)
    (methods : gmap string ModeledMethod) :
  modifiedSignatures st ⊆ list_to_set (signature <$> usages) →
  (onSaveModelClick signature usages methods st).1 = (onSaveAllClick st).1.
Proof using Type.
  clear type setPackageMethods.
  intros Hcover. destruct st as [v u modified p h old].
  unfold onSaveModelClick, onSaveAllClick, setModifiedSignatures. simpl in *.
  f_equal. rewrite foldl_delete_signatures. set_solver.
Qed.

(** X10. A batch that arrives again after "Save all" does not change the
    map, yet marks all its keys modified again. *)
Theorem add_again_after_save st batch :
  let st1 := switch_case type setPackageMethods (AddModeledMethodsMessage batch) st in
  let st3 := switch_case type setPackageMethods (AddModeledMethodsMessage batch)
               (onSaveAllClick st1).1 in
  modeledMethods st3 = modeledMethods st1
  ∧ modifiedSignatures st3 = dom batch.
Proof using Type.
  intros st1 st3. split.
  - subst st1 st3. rewrite !modeledMethods_add. simpl.
    apply merge_generated_twice.
  - subst st3. rewrite modifiedSignatures_add. simpl. set_solver.
Qed.

(** X11. A user edit stores the model under the usage's signature and leaves
    every other entry alone; it marks that signature and no other; a later
    edit of the same usage overwrites the earlier one. *)
Theorem onChange_overwrites st (modelName modelName' : string)
    (method : ExternalApiUsage) (model model' : ModeledMethod) :
  let st' := onChange signature modelName method model st in
  modeledMethods st' !! signature method = Some model
  ∧ (∀ s, s ≠ signature method → modeledMethods st' !! s = modeledMethods st !! s)
  ∧ modifiedSignatures st' = modifiedSignatures st ∪ {[ signature method ]}
  ∧ onChange signature modelName' method model' st'
    = onChange signature modelName' method model' st.
Proof using Type.
  clear type setPackageMethods.
  intros st'. subst st'. simpl. split; [apply lookup_insert_eq|].
  split; [by intros s Hs; rewrite lookup_insert_ne|]. split; [done|].
  unfold onChange, setModifiedSignatures, setModeledMethods. simpl. f_equal.
  - set_solver.
  - apply insert_insert_eq.
Qed.

End EditorMore.

Import ModelEditorView.

Section ViewSpec.

Context {ModeledMethod : Type} (type : ModeledMethod → string).
Context {ExternalApiUsage : Type} (signature : ExternalApiUsage → string).
Context {ModelEditorViewState : Type} (mode : ModelEditorViewState → Mode).
Context {InProgressMethods : Type}
        (setPackageMethods :
           InProgressMethods → string → gset string → InProgressMethods).

Local Abbreviation State :=
  (@State ModeledMethod ExternalApiUsage ModelEditorViewState InProgressMethods).

Implicit Types (st : State).

(** X12. The switch-mode link changes no state and posts one [switchMode]
    message; the mode it asks for differs from the current one, and is
    Framework while no view state has arrived. *)
Theorem switch_mode_asks_other_mode st :
  ∃ newMode,
    onSwitchModeClick mode st = (st, [SwitchModeMessage newMode])
    ∧ (∀ v, viewState st = Some v → newMode ≠ mode v)
    ∧ (viewState st = None → newMode = Framework).
Proof using Type.
  unfold onSwitchModeClick. destruct (viewState st) as [v|]; simpl.
  - destruct (mode v) eqn:Hm; eexists; (split; [done|]);
      (split; [intros ? [= <-]; by rewrite Hm|done]).
  - eexists. by split.
Qed.

(** X13. Once the editor is displayed, "Save all" is disabled exactly when no
    signature is modified: it is disabled after "Save all" and enabled after
    a user edit. *)
Theorem save_all_button st :
  (∀ a b c d, render mode st = ModelEditorContainer a b c d →
     (a = true ↔ modifiedSignatures st = ∅))
  ∧ (∀ a b c d,
       render mode (onSaveAllClick st).1 = ModelEditorContainer a b c d → a = true)
  ∧ (∀ modelName method model a b c d,
       render mode (onChange signature modelName method model st)
       = ModelEditorContainer a b c d → a = false).
Proof using Type.
  clear type setPackageMethods.
  assert (∀ st' a b c d, render mode st' = ModelEditorContainer a b c d →
            (a = true ↔ modifiedSignatures st' = ∅)) as Hgen.
  { intros st' a b c d. unfold render.
    destruct (viewState st'); [|done]. case_bool_decide; [done|].
    intros [= <- _ _ _]. rewrite bool_decide_eq_true, size_empty_iff. by unfold_leibniz. }
  split; [apply Hgen|]. split.
  - intros a b c d Hr. by apply (Hgen _ _ _ _ _ Hr).
  - intros modelName method model a b c d Hr.
    apply Hgen in Hr. destruct a; [|done].
    assert (signature method ∈ (∅ : gset string)) as Hin; [|set_solver].
    rewrite <-(proj1 Hr eq_refl). simpl. set_solver.
Qed.

(** X14. The loading placeholder is shown exactly while the view state is
    missing or the list of usages is empty; so a [setExternalApiUsages]
    message with an empty list brings the placeholder back, and a user edit
    or a save never does. *)
Theorem loading_placeholder st :
  (render mode st = LoadingContainer
   ↔ viewState st = None ∨ externalApiUsages st = [])
  ∧ render mode
      (switch_case type setPackageMethods (SetExternalApiUsagesMessage []) st)
    = LoadingContainer
  ∧ (∀ modelName method model,
       render mode (onChange signature modelName method model st) = LoadingContainer
       ↔ render mode st = LoadingContainer)
  ∧ (render mode (onSaveAllClick st).1 = LoadingContainer
     ↔ render mode st = LoadingContainer).
Proof using Type.
  assert (∀ st', render mode st' = LoadingContainer
                 ↔ viewState st' = None ∨ externalApiUsages st' = []) as Hgen.
  { intros st'. unfold render. destruct (viewState st') as [v|].
    - case_bool_decide as Hlen.
      + split; [|done]. intros _. right. by apply length_zero_iff_nil.
      + split; [done|]. intros [?|Hnil]; [done|]. by rewrite Hnil in Hlen.
    - split; [by left|done]. }
  split; [apply Hgen|]. split; [|split].
  - apply Hgen. by right.
  - intros modelName method model. by rewrite !Hgen.
  - by rewrite !Hgen.
Qed.

(** X15. Ticking "Hide modeled APIs" twice restores the state; after each
    tick the effect posts the flipped value. *)
Theorem hide_modeled_apis_toggle st :
  onHideModeledApis (onHideModeledApis st) = st
  ∧ hideModeledApis_effect (onHideModeledApis st)
    = [HideModeledApisMessage (negb (hideModeledApis st))]
  ∧ hideModeledApis_effect (onHideModeledApis (onHideModeledApis st))
    = hideModeledApis_effect st.
Proof using Type.
  destruct st as [v u modified p h old].
  unfold onHideModeledApis, setHideModeledApis, hideModeledApis_effect. simpl.
  by rewrite negb_involutive.
Qed.

End ViewSpec.

(** * Properties of the telemetry listener *)

Import TelemetryListenerMethods.

Lemma lookup_delete_each {V} (keys : list string) (o : gmap string V) (k : string) :
  delete_each keys o !! k = if bool_decide (k ∈ keys) then None else o !! k.
Proof.
  unfold delete_each. revert o. induction keys as [|k' keys IH]; intros o; simpl.
  - done.
  - rewrite IH. destruct (decide (k = k')) as [->|Hne].
    + rewrite lookup_delete_eq. rewrite (bool_decide_eq_true_2 (k' ∈ k' :: keys)).
      * by case_bool_decide.
      * apply list_elem_of_here.
    + rewrite lookup_delete_ne by done.
      case_bool_decide as Hin; case_bool_decide as Hin'; try done.
      * exfalso. apply Hin', elem_of_cons. by right.
      * apply elem_of_cons in Hin' as [?|?]; done.
Qed.

Section ProcessorSpec.

Context {V : Type}.
Implicit Types (envelope : @Envelope V).

(** X16. The telemetry processor never drops an envelope. When it is done,
    none of the listed tags is left and every other tag is as it was; the
    same holds of the listed properties of the base data, and an envelope
    without such properties keeps its data as it is. *)
Theorem telemetryProcessor_scrubs (LOG_TELEMETRY : bool) envelope :
  let r := telemetryProcessor LOG_TELEMETRY envelope in
  r.1.1 = true
  ∧ (∀ tag, tags r.1.2 !! tag
            = if bool_decide (tag ∈ tagsToRemove) then None
              else tags envelope !! tag)
  ∧ (∀ p, baseDataProperties envelope = Some p →
       ∃ p', baseDataProperties r.1.2 = Some p'
             ∧ ∀ k, p' !! k
                    = if bool_decide (k ∈ baseDataPropertiesToRemove) then None
                      else p !! k)
  ∧ (baseDataProperties envelope = None → data r.1.2 = data envelope).
Proof using Type.
  intros r. subst r. unfold telemetryProcessor, scrub. cbn [fst snd tags data].
  split; [done|]. split; [intros tag; apply lookup_delete_each|].
  unfold baseDataProperties. cbn [data].
  destruct (data envelope) as [[[[[p0|]]|]]|]; cbn [baseData properties];
    split; try done.
  intros p [= <-]. eexists. split; [done|]. intros k. apply lookup_delete_each.
Qed.

(** X17. Running the processor on an envelope it has already scrubbed changes
    nothing, and what it writes to the log, which it does only when
    [LOG_TELEMETRY] is set, is the scrubbed envelope. *)
Theorem telemetryProcessor_idempotent (LOG_TELEMETRY LOG_TELEMETRY' : bool) envelope :
  let r := telemetryProcessor LOG_TELEMETRY envelope in
  (telemetryProcessor LOG_TELEMETRY' r.1.2).1.2 = r.1.2
  ∧ r.2 = (if LOG_TELEMETRY then [r.1.2] else [])
  ∧ (∀ logged tag, logged ∈ r.2 → tag ∈ tagsToRemove → tags logged !! tag = None).
Proof using Type.
  intros r. subst r. unfold telemetryProcessor. cbn [fst snd].
  split; [|split; [done|]].
  - unfold scrub. cbn [tags data]. f_equal.
    + apply map_eq. intros k. rewrite !lookup_delete_each. by case_bool_decide.
    + destruct (data envelope) as [[[[[p0|]]|]]|]; try done.
      do 5 f_equal. apply map_eq. intros k. rewrite !lookup_delete_each.
      by case_bool_decide.
  - intros logged tag Hin Htag. destruct LOG_TELEMETRY; [|by apply elem_of_nil in Hin].
    apply list_elem_of_singleton in Hin as ->. unfold scrub. cbn [tags].
    rewrite lookup_delete_each. by rewrite bool_decide_eq_true_2.
Qed.

End ProcessorSpec.

Section ListenerSpec.

Context {ExtensionContext : Type} {number : Type}.

Local Abbreviation World := (@World ExtensionContext number).
Local Abbreviation Reporter := TelemetryListenerMethods.Reporter.
Local Abbreviation Inputs := TelemetryListenerMethods.Inputs.

Implicit Types (w : World) (i : Inputs) (r : Reporter).

(** X18. With a reporter, [sendError] sends one "error" event without
    measurements. Its properties are the extra properties given, with "type"
    set to the error type unless the extra properties have a "type" of their
    own, and with "stack" set to the stack when a non-empty one is given. *)
Theorem sendError_properties (errorType : string) (stack : option string)
    (extraProperties : option (gmap string string)) w r :
  reporter (this w) = Some r →
  ∃ e,
    sendError errorType stack extraProperties w = call [SendTelemetryEvent r e] w
    ∧ eventName e = "error"
    ∧ measurements e = ∅
    ∧ (∀ k, k ≠ "type" → k ≠ "stack" →
            event_properties e !! k = default ∅ extraProperties !! k)
    ∧ event_properties e !! "type"
      = Some (default errorType (default ∅ extraProperties !! "type"))
    ∧ (∀ s, stack = Some s → s ≠ "" → event_properties e !! "stack" = Some s)
    ∧ (stack = None ∨ stack = Some "" →
       event_properties e !! "stack" = default ∅ extraProperties !! "stack").
Proof using Type.
  intros Hr. unfold sendError. rewrite Hr. eexists. split; [reflexivity|].
  cbn [eventName measurements event_properties].
  split; [done|]. split; [done|].
  set (extra := default ∅ extraProperties).
  assert (∀ k, object_spread (<[ "type" := errorType ]> ∅) extra !! k
               = match extra !! k with
                 | Some v => Some v
                 | None => if decide (k = "type") then Some errorType else None
                 end) as Hspread.
  { intros k. unfold object_spread. rewrite lookup_union.
    destruct (extra !! k) as [v|] eqn:Hk.
    - by destruct (<[ "type" := errorType ]> (∅ : gmap string string) !! k).
    - case_decide as Hkt.
      + subst k. by rewrite lookup_insert_eq.
      + by rewrite lookup_insert_ne. }
  repeat split.
  - intros k Hk1 Hk2.
    assert (object_spread (<[ "type" := errorType ]> ∅) extra !! k = extra !! k) as Hk.
    { rewrite Hspread. destruct (extra !! k); [done|]. by rewrite decide_False. }
    destruct stack as [s|]; [|done].
    case_bool_decide; [|done]. by rewrite lookup_insert_ne.
  - assert (object_spread (<[ "type" := errorType ]> ∅) extra !! "type"
            = Some (default errorType (extra !! "type"))) as Hk.
    { rewrite Hspread. by destruct (extra !! "type"). }
    destruct stack as [s|]; [|done].
    case_bool_decide; [|done]. by rewrite lookup_insert_ne.
  - intros s -> Hs. rewrite bool_decide_eq_true_2 by done. apply lookup_insert_eq.
  - intros [->| ->]; [|rewrite bool_decide_eq_false_2 by (by intros H; apply H)];
      rewrite Hspread; by destruct (extra !! "stack").
Qed.

(** X19. With a reporter, [sendCommandUsage] sends one "command-usage" event
    with the properties "name", "status" and "isCanary" and the execution
    time as its measurement; the status is "Success" exactly when no error is
    given, "Cancelled" exactly for a user cancellation and "Failed" exactly
    for any other error. *)
Theorem sendCommandUsage_event i (name : string) (executionTime : number)
    (error : option ErrorClass) w r :
  reporter (this w) = Some r →
  ∃ e,
    sendCommandUsage i name executionTime error w = call [SendTelemetryEvent r e] w
    ∧ eventName e = "command-usage"
    ∧ dom (event_properties e) = {[ "name"; "status"; "isCanary" ]}
    ∧ event_properties e !! "name" = Some name
    ∧ event_properties e !! "isCanary"
      = Some (if isCanary i then "true" else "false")
    ∧ (event_properties e !! "status" = Some "Success" ↔ error = None)
    ∧ (event_properties e !! "status" = Some "Cancelled"
       ↔ error = Some UserCancellationException)
    ∧ (event_properties e !! "status" = Some "Failed" ↔ error = Some OtherError)
    ∧ measurements e = {[ "executionTime" := executionTime ]}.
Proof using Type.
  intros Hr. unfold sendCommandUsage. rewrite Hr. eexists. split; [reflexivity|].
  cbn [eventName measurements event_properties].
  split; [done|]. split; [rewrite !dom_insert_L; set_solver|].
  split; [apply lookup_insert_eq|].
  split; [by rewrite !lookup_insert_ne, lookup_insert_eq by done|].
  rewrite lookup_insert_ne, lookup_insert_eq by done.
  destruct error as [[]|]; simpl; repeat split; try done; by intros [=].
Qed.

Lemma requestTelemetryPermission_viewed i w :
  wasTelemetryRequested w = true → requestTelemetryPermission i w = w.
Proof using Type. unfold requestTelemetryPermission. by intros ->. Qed.

(** X20. No dialog is shown, and nothing at all changes, when the request
    was already answered, when telemetry is disabled globally, or in
    integration test mode. *)
Theorem requestTelemetryPermission_silent i w :
  wasTelemetryRequested w = true
  ∨ GLOBAL_ENABLE_TELEMETRY i = false
  ∨ isIntegrationTestMode i = true →
  requestTelemetryPermission i w = w.
Proof using Type.
  intros [Hv|[Hg|Ht]]; [by apply requestTelemetryPermission_viewed| |];
    unfold requestTelemetryPermission.
  - rewrite Hg. by destruct (wasTelemetryRequested w).
  - rewrite Ht, andb_false_r. by destruct (wasTelemetryRequested w).
Qed.

(** X21. Otherwise one dialog is shown. An answer is stored as the value of
    [ENABLE_TELEMETRY] and the request is marked as viewed, after which
    asking again does nothing; a dialog closed without an answer leaves the
    setting and the global state as they were, so that the next request asks
    again. The listener and its reporter are not touched either way. *)
Theorem requestTelemetryPermission_asks i w :
  wasTelemetryRequested w = false →
  GLOBAL_ENABLE_TELEMETRY i = true →
  isIntegrationTestMode i = false →
  let w' := requestTelemetryPermission i w in
  dialogs w' = S (dialogs w) ∧ this w' = this w ∧ trace w' = trace w
  ∧ match showBinaryChoiceWithUrlDialog i (dialogs w) with
    | Some answer =>
        ENABLE_TELEMETRY w' = answer
        ∧ wasTelemetryRequested w' = true
        ∧ ∀ i', requestTelemetryPermission i' w' = w'
    | None =>
        ENABLE_TELEMETRY w' = ENABLE_TELEMETRY w
        ∧ globalState w' = globalState w
        ∧ wasTelemetryRequested w' = false
    end.
Proof using Type.
  intros Hreq Hg Ht w'. subst w'. unfold requestTelemetryPermission.
  rewrite Hreq, Hg, Ht. cbn [negb andb].
  destruct (showBinaryChoiceWithUrlDialog i (dialogs w)) as [answer|]; cbn.
  - repeat split; try done.
    + unfold wasTelemetryRequested. cbn. by rewrite lookup_insert_eq.
    + intros i'. apply requestTelemetryPermission_viewed.
      unfold wasTelemetryRequested. cbn. by rewrite lookup_insert_eq.
  - done.
Qed.

Lemma disposeReporter_spec w :
  reporter (this (disposeReporter w)) = None
  ∧ ENABLE_TELEMETRY (disposeReporter w) = ENABLE_TELEMETRY w
  ∧ created (disposeReporter w) = created w
  ∧ listener_id (this (disposeReporter w)) = listener_id (this w)
  ∧ listener_version (this (disposeReporter w)) = listener_version (this w)
  ∧ listener_key (this (disposeReporter w)) = listener_key (this w)
  ∧ trace (disposeReporter w)
    = trace w ++ match reporter (this w) with
                 | Some r => [DisposeReporter r]
                 | None => []
                 end.
Proof using Type.
  unfold disposeReporter. destruct (reporter (this w)) as [r|] eqn:Hr; cbn.
  - done.
  - rewrite Hr, app_nil_r. done.
Qed.

Lemma requestTelemetryPermission_frame i w :
  this (requestTelemetryPermission i w) = this w
  ∧ trace (requestTelemetryPermission i w) = trace w
  ∧ created (requestTelemetryPermission i w) = created w.
Proof using Type.
  unfold requestTelemetryPermission.
  destruct (wasTelemetryRequested w); cbn [negb]; [done|].
  destruct (GLOBAL_ENABLE_TELEMETRY i && negb (isIntegrationTestMode i))%bool;
    [|done].
  by destruct (showBinaryChoiceWithUrlDialog i (dialogs w)).
Qed.

(** X22. When [initialize] is done, the listener has a reporter exactly when
    [ENABLE_TELEMETRY] is on. The reporter it had before has been disposed
    of; the reporter it has now is a new one, built from the listener's id,
    version and key, and registered for disposal. Calls made earlier stay in
    the record of calls. *)
Theorem initialize_reporter i w :
  let w' := initialize i w in
  (is_Some (reporter (this w')) ↔ ENABLE_TELEMETRY w' = true)
  ∧ (∀ r, reporter (this w) = Some r → DisposeReporter r ∈ trace w')
  ∧ (∀ r', reporter (this w') = Some r' →
       r' = mkReporter (listener_id (this w)) (listener_version (this w))
                       (listener_key (this w)) true (created w)
       ∧ created w' = S (created w)
       ∧ PushDisposable r' ∈ trace w'
       ∧ (appInsightsClient i = true → AddTelemetryProcessor r' ∈ trace w'))
  ∧ ∃ calls, trace w' = trace w ++ calls.
Proof using Type.
  intros w'. subst w'. unfold initialize.
  destruct (requestTelemetryPermission_frame i w) as (Hthis & Htrace & Hcreated).
  set (w1 := requestTelemetryPermission i w) in *.
  destruct (disposeReporter_spec w1) as (Hrep & Hen & Hcr & Hid & Hver & Hkey & Htr).
  set (w2 := disposeReporter w1) in *.
  rewrite Hthis, Htrace in Htr. rewrite Hthis in Hid, Hver, Hkey.
  rewrite Hcreated in Hcr.
  destruct (ENABLE_TELEMETRY w2) eqn:Hon.
  - unfold createReporter. rewrite Hid, Hver, Hkey, Hcr.
    destruct (appInsightsClient i) eqn:Hclient; cbn; rewrite Htr, Hon.
    + split; [by eauto|]. split; [|split].
      * intros r Hr. rewrite Hr, !elem_of_app, !elem_of_cons. by eauto 10.
      * intros r' [= <-]. split; [done|]. split; [done|].
        split; [|intros Hc; try done];
          rewrite !elem_of_app, !elem_of_cons; by eauto 10.
      * rewrite <-!(assoc_L (++)). by eauto.
    + split; [by eauto|]. split; [|split].
      * intros r Hr. rewrite Hr, !elem_of_app, !elem_of_cons. by eauto 10.
      * intros r' [= <-]. split; [done|]. split; [done|].
        split; [|intros Hc; try done];
          rewrite !elem_of_app, !elem_of_cons; by eauto 10.
      * rewrite <-!(assoc_L (++)). by eauto.
  - rewrite Hrep, Hon, Htr. split; [|split; [|split]].
    + split; [by intros [? ?]|done].
    + intros r Hr. rewrite Hr, elem_of_app, elem_of_cons. by eauto.
    + done.
    + by eauto.
Qed.

(** X23. A configuration change that touches neither telemetry setting does
    nothing at all, unless it touches [codeQL.canary] while canary features
    are on and telemetry is off. *)
Theorem handleDidChangeConfiguration_irrelevant i (e : string → bool) w :
  e "codeQL.telemetry.enableTelemetry" = false →
  e "telemetry.enableTelemetry" = false →
  e "codeQL.canary" = false ∨ CANARY_FEATURES i = false ∨ ENABLE_TELEMETRY w = true →
  handleDidChangeConfiguration i e w = w.
Proof using Type.
  intros He1 He2 Hc. unfold handleDidChangeConfiguration. rewrite He1, He2.
  cbn [orb]. destruct Hc as [->|[->| ->]]; [done| |].
  - by rewrite andb_false_r.
  - cbn [negb]. by rewrite andb_false_r.
Qed.

(** X24. A change of [codeQL.canary] alone, with canary features on and
    telemetry off, shows the dialog again even when the request was answered
    before. An answer becomes the value of [ENABLE_TELEMETRY] and marks the
    request as viewed; without an answer the request stays marked as not
    viewed. No reporter is created or disposed of on this path. *)
Theorem handleDidChangeConfiguration_canary i (e : string → bool) w :
  e "codeQL.telemetry.enableTelemetry" = false →
  e "telemetry.enableTelemetry" = false →
  e "codeQL.canary" = true →
  CANARY_FEATURES i = true →
  ENABLE_TELEMETRY w = false →
  GLOBAL_ENABLE_TELEMETRY i = true →
  isIntegrationTestMode i = false →
  let w' := handleDidChangeConfiguration i e w in
  dialogs w' = S (dialogs w) ∧ this w' = this w ∧ trace w' = trace w
  ∧ match showBinaryChoiceWithUrlDialog i (dialogs w) with
    | Some answer => ENABLE_TELEMETRY w' = answer ∧ wasTelemetryRequested w' = true
    | None => ENABLE_TELEMETRY w' = false ∧ wasTelemetryRequested w' = false
    end.
Proof using Type.
  intros He1 He2 He3 Hc Hoff Hg Ht w'. subst w'.
  unfold handleDidChangeConfiguration. rewrite He1, He2, He3, Hc.
  cbn [orb andb]. rewrite Hoff. cbn [negb].
  assert (wasTelemetryRequested (setTelemetryRequested false w) = false) as Hreq.
  { unfold wasTelemetryRequested. cbn. by rewrite lookup_insert_eq. }
  unfold requestTelemetryPermission. rewrite Hreq, Hg, Ht. cbn [negb andb].
  destruct (showBinaryChoiceWithUrlDialog i (dialogs (setTelemetryRequested false w)))
    as [answer|] eqn:Hans; cbn in Hans; rewrite Hans; cbn.
  - repeat split; try done.
    unfold wasTelemetryRequested. cbn. by rewrite lookup_insert_eq.
  - repeat split; try done.
Qed.

(** X25. The listener that [initializeTelemetry] installs has no reporter:
    until its initialization has created one, a command usage, a UI
    interaction or an error handed to it is not sent anywhere. *)
Theorem events_before_initialize_are_dropped (extension : Extension)
    (ctx : ExtensionContext) (g : @Globals ExtensionContext Reporter) l w i
    (name : string) (executionTime : number) (error : option ErrorClass)
    (errorType : string) (stack : option string)
    (extraProperties : option (gmap string string)) :
  telemetryListener g = None →
  telemetryListener (initializeTelemetry extension ctx g).2 = Some l →
  this w = l →
  sendCommandUsage i name executionTime error w = w
  ∧ sendUIInteraction i name w = w
  ∧ sendError errorType stack extraProperties w = w.
Proof using Type.
  unfold initializeTelemetry. intros ->. cbn. intros [= <-] Hthis.
  unfold sendCommandUsage, sendUIInteraction, sendError. by rewrite Hthis.
Qed.

Lemma initialize_off_no_reporter i w :
  ENABLE_TELEMETRY (initialize i w) = false → reporter (this (initialize i w)) = None.
Proof using Type.
  unfold initialize.
  destruct (disposeReporter_spec (requestTelemetryPermission i w))
    as (Hrep & _).
  destruct (ENABLE_TELEMETRY (disposeReporter (requestTelemetryPermission i w)))
    eqn:Hon; [|done].
  unfold createReporter. intros Hoff. exfalso. revert Hoff.
  destruct (appInsightsClient i); cbn; by rewrite Hon.
Qed.

(** X26. When [initialize] ends with [ENABLE_TELEMETRY] off, the listener
    sends nothing: a command usage, a UI interaction or an error handed to it
    afterwards leaves no call behind. *)
Theorem telemetry_off_sends_nothing i w (name : string) (executionTime : number)
    (error : option ErrorClass) (errorType : string) (stack : option string)
    (extraProperties : option (gmap string string)) :
  ENABLE_TELEMETRY (initialize i w) = false →
  let w' := initialize i w in
  sendCommandUsage i name executionTime error w' = w'
  ∧ sendUIInteraction i name w' = w'
  ∧ sendError errorType stack extraProperties w' = w'.
Proof using Type.
  intros Hoff w'. subst w'. apply initialize_off_no_reporter in Hoff.
  unfold sendCommandUsage, sendUIInteraction, sendError. by rewrite Hoff.
Qed.

End ListenerSpec.

(** ** The further properties on concrete states *)

Lemma edit_then_generated_witness :
  modeledMethods
    (switch_case Sample.method_type Sample.set_package
       (AddModeledMethodsMessage Sample.generated)
       (onChange Sample.usage_signature "sinks" "A#h()" ("sink", "user")
          Sample.edited)) !! "A#h()"
  = Some ("sink", "user").
Proof.
  apply (proj1 (proj2 (edit_then_generated Sample.method_type
                         Sample.usage_signature Sample.set_package
                         Sample.edited "sinks" "A#h()" ("sink", "user")
                         Sample.generated))).
  discriminate.
Defined.

Lemma add_domain_witness :
  (<[ "A#g()" := ("none", "generated") ]> ∅ : gmap string Sample.Method) !! "A#g()"
  = Some ("none", "generated").
Proof.
  apply (proj2 (add_domain Sample.method_type Sample.set_package
                  Sample.reset_to_none
                  (<[ "A#g()" := ("none", "generated") ]> ∅))
               "A#g()" ("none", "generated")); reflexivity.
Defined.


Lemma save_model_covering_is_save_all_witness :
  (onSaveModelClick Sample.usage_signature ["A#f()"; "A#g()"] ∅ Sample.edited).1
  = (onSaveAllClick Sample.edited).1.
Proof.
  apply (save_model_covering_is_save_all Sample.usage_signature Sample.edited
           ["A#f()"; "A#g()"] ∅).
  intros s Hs. change (s ∈ ({[ "A#f()" ]} : gset string)) in Hs.
  apply elem_of_singleton in Hs. subst s.
  apply elem_of_list_to_set, list_elem_of_here.
Defined.

Lemma onChange_overwrites_witness :
  modeledMethods
    (onChange Sample.usage_signature "sinks" "A#f()" ("source", "user")
       Sample.edited) !! "A#g()"
  = modeledMethods Sample.edited !! "A#g()".
Proof.
  apply (proj1 (proj2 (onChange_overwrites Sample.usage_signature Sample.edited
                         "sinks" "sinks" "A#f()"
                         ("source", "user") ("source", "user")))).
  discriminate.
Defined.

Lemma switch_mode_asks_other_mode_witness :
  ∃ newMode,
    onSwitchModeClick Scenario.mode_of Scenario.displayed
    = (Scenario.displayed, [SwitchModeMessage newMode])
    ∧ newMode ≠ Framework.
Proof.
  destruct (switch_mode_asks_other_mode Scenario.mode_of Scenario.displayed)
    as (newMode & Hpost & Hother & _).
  exists newMode. split; [exact Hpost|]. exact (Hother Framework eq_refl).
Defined.

Lemma save_all_button_witness :
  bool_decide (size (modifiedSignatures (onSaveAllClick Scenario.displayed).1) = 0)
  = true.
Proof.
  apply (proj1 (proj2 (save_all_button Sample.usage_signature Scenario.mode_of
                         Scenario.displayed))
               _ false "Model as application" true).
  reflexivity.
Defined.

Lemma telemetryProcessor_scrubs_witness :
  ∃ p', baseDataProperties (telemetryProcessor true Scenario.envelope).1.2 = Some p'
        ∧ ∀ k, p' !! k
               = if bool_decide (k ∈ baseDataPropertiesToRemove) then None
                 else (<[ "common.os" := "linux" ]> (<[ "name" := "runQuery" ]> ∅)
                       : gmap string string) !! k.
Proof.
  apply (proj1 (proj2 (proj2 (telemetryProcessor_scrubs true Scenario.envelope)))).
  reflexivity.
Defined.

Lemma telemetryProcessor_idempotent_witness :
  tags (telemetryProcessor true Scenario.envelope).1.2 !! "ai.session.id" = None.
Proof.
  apply (proj2 (proj2 (telemetryProcessor_idempotent true true Scenario.envelope))).
  - apply list_elem_of_here.
  - apply (bool_decide_unpack _). vm_compute. exact I.
Defined.

Lemma sendError_properties_witness :
  ∃ e,
    sendError "command_failed" (Some "at runQuery") None Scenario.reporting
    = call [SendTelemetryEvent Scenario.reporter0 e] Scenario.reporting
    ∧ event_properties e !! "stack" = Some "at runQuery".
Proof.
  destruct (sendError_properties "command_failed" (Some "at runQuery") None
              Scenario.reporting Scenario.reporter0 eq_refl)
    as (e & Hsend & _ & _ & _ & _ & Hstack & _).
  exists e. split; [exact Hsend|]. apply (Hstack "at runQuery" eq_refl).
  discriminate.
Defined.

Lemma sendCommandUsage_event_witness :
  ∃ e,
    sendCommandUsage Scenario.user_agrees "codeQL.runQuery" 42
      (Some UserCancellationException) Scenario.reporting
    = call [SendTelemetryEvent Scenario.reporter0 e] Scenario.reporting
    ∧ eventName e = "command-usage".
Proof.
  destruct (sendCommandUsage_event Scenario.user_agrees "codeQL.runQuery" 42
              (Some UserCancellationException) Scenario.reporting
              Scenario.reporter0 eq_refl)
    as (e & Hsend & Hname & _).
  exists e. split; [exact Hsend|exact Hname].
Defined.

Lemma requestTelemetryPermission_silent_witness :
  requestTelemetryPermission Scenario.user_agrees Scenario.enabled = Scenario.enabled.
Proof.
  apply requestTelemetryPermission_silent. left. reflexivity.
Defined.

Lemma requestTelemetryPermission_asks_witness :
  dialogs (requestTelemetryPermission Scenario.user_agrees Scenario.idle) = 1.
Proof.
  apply (proj1 (requestTelemetryPermission_asks Scenario.user_agrees Scenario.idle
                  eq_refl eq_refl eq_refl)).
Defined.

Lemma initialize_reporter_witness :
  DisposeReporter Scenario.reporter0
  ∈ trace (initialize Scenario.user_agrees Scenario.reporting).
Proof.
  apply (proj1 (proj2 (initialize_reporter Scenario.user_agrees Scenario.reporting))
               Scenario.reporter0).
  reflexivity.
Defined.

Lemma handleDidChangeConfiguration_irrelevant_witness :
  handleDidChangeConfiguration Scenario.user_agrees (λ _, false) Scenario.idle
  = Scenario.idle.
Proof.
  apply handleDidChangeConfiguration_irrelevant; [reflexivity|reflexivity|].
  left. reflexivity.
Defined.

Lemma handleDidChangeConfiguration_canary_witness :
  dialogs (handleDidChangeConfiguration Scenario.user_agrees
             Scenario.canary_changed Scenario.idle) = 1.
Proof.
  apply (proj1 (handleDidChangeConfiguration_canary Scenario.user_agrees
                  Scenario.canary_changed Scenario.idle
                  eq_refl eq_refl eq_refl eq_refl eq_refl eq_refl eq_refl)).
Defined.

Lemma events_before_initialize_are_dropped_witness :
  sendUIInteraction Scenario.user_agrees "open-model-editor" Scenario.idle
  = Scenario.idle.
Proof.
  apply (proj1 (proj2 (events_before_initialize_are_dropped Sample.extension tt
                         (mkGlobals None [] []) (this Scenario.idle) Scenario.idle
                         Scenario.user_agrees "open-model-editor" 0 None
                         "command_failed" None None
                         eq_refl eq_refl eq_refl))).
Defined.

Lemma telemetry_off_sends_nothing_witness :
  sendUIInteraction Scenario.user_declines "open-model-editor"
    (initialize Scenario.user_declines Scenario.idle)
  = initialize Scenario.user_declines Scenario.idle.
Proof.
  apply (proj1 (proj2 (telemetry_off_sends_nothing Scenario.user_declines
                         Scenario.idle "open-model-editor" 0 None
                         "command_failed" None None eq_refl))).
Defined.
